(** * addressesfrpy: the client of the French address service

    A shallow embedding of [addressesfrpy/api.py]: the values a decoded
    JSON body can take, Python's truth test and dictionary operations on
    them, the response check [_check_response] and the two operations
    [async_search] and [async_reverse] with the requests they hand to the
    request layer. *)

From Stdlib Require Import ZArith List String Bool PrimFloat.
Import ListNotations.
Open Scope string_scope.

Set Warnings "-register-all,-inexact-float".

(** ** Python values *)

(** What [json.loads] can produce, which is what the request layer hands back
    as a body. A dictionary keeps its items in insertion order. *)
Inductive pyval : Type :=
| PNone
| PBool (b : bool)
| PInt (n : Z)
| PFloat (f : float)
| PStr (s : string)
| PList (l : list pyval)
| PDict (d : list (string * pyval)).

Definition dict : Type := list (string * pyval).

(** [bool(v)]: the truth test behind [if v], [not v] and [v and ...]. *)
Definition truthy (v : pyval) : bool :=
  match v with
  | PNone => false
  | PBool b => b
  | PInt n => negb (Z.eqb n 0)
  | PFloat f => negb (PrimFloat.eqb f PrimFloat.zero)
  | PStr s => negb (String.eqb s "")
  | PList l => match l with [] => false | _ :: _ => true end
  | PDict d => match d with [] => false | _ :: _ => true end
  end.

(** [isinstance(v, dict)] *)
Definition isinstance_dict (v : pyval) : bool :=
  match v with
  | PDict _ => true
  | _ => false
  end.

(** [d.get(k)]: the value under the key, [None] when there is none. *)
Fixpoint dict_get (k : string) (d : dict) : option pyval :=
  match d with
  | [] => None
  | (k', v) :: d' => if String.eqb k k' then Some v else dict_get k d'
  end.

(** [k in d] *)
Definition dict_contains (k : string) (d : dict) : bool :=
  match dict_get k d with
  | Some _ => true
  | None => false
  end.

(** [d[k] = v]: a key already there keeps its place and takes the new value,
    a new key goes to the end. *)
Fixpoint dict_set (k : string) (v : pyval) (d : dict) : dict :=
  match d with
  | [] => [(k, v)]
  | (k', v') :: d' =>
      if String.eqb k k' then (k', v) :: d' else (k', v') :: dict_set k v d'
  end.

(** A dictionary display [{k1: v1, ..., **more}] and [dict.update]: the items
    are stored one after the other, from left to right. *)
Definition dict_update (d items : dict) : dict :=
  fold_left (fun acc kv => dict_set (fst kv) (snd kv) acc) items d.

(** ** Exceptions *)

(** The classes of the exceptions that can leave the client. [HttpRequestError]
    stands for that class of the request layer and whatever derives from it,
    which [except HttpRequestError] catches alike; [OtherError] is any other
    class, named. *)
Inductive exn_class : Type :=
| AddressFrException
| AddressNotFound
| HttpRequestError
| TypeError
| KeyError
| OtherError (name : string).

(** An exception object: its class, the message it was built with and its
    [__cause__], set by [raise ... from ...]. *)
Inductive exn : Type :=
| Exn (cls : exn_class) (msg : string) (cause : option exn).

Definition exn_cls (e : exn) : exn_class := let 'Exn c _ _ := e in c.
Definition exn_msg (e : exn) : string := let 'Exn _ m _ := e in m.
Definition exn_cause (e : exn) : option exn := let 'Exn _ _ c := e in c.

(** How the body of a function ends: at a [return], at a [raise], or by
    running off its last statement, which hands [None] to the caller. *)
Inductive completion : Type :=
| Return (v : pyval)
| Raise (e : exn)
| FallOff.

(** What the caller gets when nothing was raised. *)
Definition returned_value (c : completion) : option pyval :=
  match c with
  | Return v => Some v
  | Raise _ => None
  | FallOff => Some PNone
  end.

(** [k in v] and [v[k]] for a value [v] that the code has already tested with
    [isinstance(v, dict)]; on anything else the subscript is a [TypeError],
    which the checks in front of it keep out of reach. *)
Definition has_key (k : string) (v : pyval) : bool :=
  match v with
  | PDict d => dict_contains k d
  | _ => false
  end.

Definition item (k : string) (v : pyval) : exn + pyval :=
  match v with
  | PDict d =>
      match dict_get k d with
      | Some x => inr x
      | None => inl (Exn KeyError k None)
      end
  | _ => inl (Exn TypeError "" None)
  end.

(** Evaluating an expression that may raise, inside a function body. *)
Notation "'let?' x ':=' e 'in' k" :=
  (match e with
   | inl ex => Raise ex
   | inr x => k
   end)
  (at level 10, x name, e at level 100, k at level 200).

(** [s] starts with [p]. *)
Definition starts_with (p s : string) : bool := String.prefix p s.

(** [s] occurs in [t]. *)
Definition occurs_in (s t : string) : Prop :=
  exists pre post, t = pre ++ s ++ post.

Section Client.

(** [str(v)] for a value that is not a string, as the f-string of the error
    message calls it: the interpreter's own rendering of [None], numbers,
    lists and dictionaries. *)
Variable render : pyval -> string.

(** [format(v, "")], what [{...}] in an f-string inserts: a string goes in
    as it is, anything else through [str]. *)
Definition format_value (v : pyval) : string :=
  match v with
  | PStr s => s
  | _ => render v
  end.

(** [AddressFr._check_response] *)
Definition _check_response (response : pyval) : completion :=
  if truthy response && isinstance_dict response
     && has_key "features" response
  then
    let? response := item "features" response in
    if negb (truthy response)
    then Raise (Exn AddressNotFound
                  "No addresses found for the given query." None)
    else Return response
  else if negb (truthy response) || negb (isinstance_dict response)
  then Raise (Exn AddressFrException
                "Invalid response from address service." None)
  else if has_key "error" response
  then
    let? err := item "error" response in
    Raise (Exn AddressFrException
             ("Error in response: " ++ format_value err) None)
  else if negb (has_key "features" response)
  then Raise (Exn AddressFrException
                "No features found in the response." None)
  else
    let? features := item "features" response in
    if negb (truthy features)
    then Raise (Exn AddressFrException
                  "No features found in the response." None)
    else FallOff.

(** ** The request layer and the world around the client *)

(** [consts.API_BASE_URL], a constant of the package. *)
Variable API_BASE_URL : string.

Inductive http_method : Type := GET | POST.

(** A request as it leaves the client: verb, address and query parameters. *)
Record request : Type := mkRequest
  { req_method : http_method;
    req_path : string;
    req_params : dict }.

(** What the service and the network make of a request: a decoded body, or
    an exception of the request layer. *)
Inductive reply : Type :=
| Body (v : pyval)
| Failure (e : exn).

(** The service and the network: the reply to a request may depend on the
    requests sent before it. *)
Variable network : list request -> request -> reply.

(** A record of the module's logger: [_LOGGER.error(fmt, arg)]. *)
Record log_record : Type := mkLog
  { log_format : string;
    log_arg : exn }.

(** What the client acts on: the requests sent so far, oldest first, and
    the error records logged so far. *)
Record world : Type := mkWorld
  { sent : list request;
    logged : list log_record }.

Definition log_error (fmt : string) (arg : exn) (w : world) : world :=
  {| sent := sent w; logged := (logged w ++ [mkLog fmt arg])%list |}.

(** Modelled from the spec: [HTTPRequest.async_request] of [auth.py], the
    request layer the client inherits, which is not among the sources. It
    performs one HTTP GET against the given path with the given query
    parameters and returns the decoded JSON body or raises a
    transport-level error. *)
Definition async_request (path : string) (params : dict) (w : world)
  : world * (exn + pyval) :=
  let r := mkRequest GET path params in
  ({| sent := (sent w ++ [r])%list; logged := logged w |},
   match network (sent w) r with
   | Body v => inr v
   | Failure e => inl e
   end).

(** [isinstance(e, HttpRequestError)], the test of the [except] clause. *)
Definition is_HttpRequestError (e : exn) : bool :=
  match exn_cls e with
  | HttpRequestError => true
  | _ => false
  end.

(** The body of [AddressFr.async_search], its parameters bound. *)
Definition async_search_body (query limit : pyval) (kwargs : dict)
  (w : world) : world * completion :=
  let params := dict_update [] ([("q", query); ("limit", limit)] ++ kwargs)%list in
  let (w, r) := async_request (API_BASE_URL ++ "/search") params w in
  match r with
  | inr addresses => (w, _check_response addresses)
  | inl error =>
      if is_HttpRequestError error
      then (log_error "Failed to query address: %s" error w,
            Raise (Exn AddressNotFound "Address not found." (Some error)))
      else (w, Raise error)
  end.

(** The body of [AddressFr.async_reverse], its parameters bound. *)
Definition async_reverse_body (kwargs : dict) (w : world)
  : world * completion :=
  let params := dict_update [] kwargs in
  let (w, r) := async_request (API_BASE_URL ++ "/reverse") params w in
  match r with
  | inr addresses => (w, _check_response addresses)
  | inl error =>
      if is_HttpRequestError error
      then (log_error "Failed to query address: %s" error w,
            Raise (Exn AddressNotFound "Address not found." (Some error)))
      else (w, Raise error)
  end.

(** ** Calls: binding arguments to the parameters of the signatures *)

(** Why the interpreter refuses a call. *)
Inductive bind_error : Type :=
| TooManyPositional (given : nat)
| MultipleValues (name : string)
| MissingArgument (name : string)
| RepeatedKeyword.

(** The interpreter's wording of the [TypeError] of a refused call. *)
Variable describe : bind_error -> string.

Definition refuse {A : Type} (why : bind_error) : exn + A :=
  inl (Exn TypeError (describe why) None).

(** No name occurs twice among the keyword arguments. *)
Fixpoint unique_keys (d : dict) : bool :=
  match d with
  | [] => true
  | (k, _) :: d' => negb (dict_contains k d') && unique_keys d'
  end.

(** The keyword arguments that no named parameter takes: what [**kwargs]
    collects. *)
Definition dict_without (names : list string) (d : dict) : dict :=
  filter (fun kv => negb (existsb (String.eqb (fst kv)) names)) d.

(** [async_search(self, query: str, limit: int = 10, **kwargs)], called on
    an instance with the positional arguments [args] and the keyword
    arguments [kw]: the values of [query] and [limit] and the dictionary
    [kwargs], or the refusal of the call. *)
Definition bind_search (args : list pyval) (kw : dict)
  : exn + (pyval * pyval * dict) :=
  if negb (unique_keys kw) then refuse RepeatedKeyword
  else if dict_contains "self" kw then refuse (MultipleValues "self")
  else
    let kwargs := dict_without ["query"; "limit"] kw in
    match args with
    | [] =>
        match dict_get "query" kw with
        | None => refuse (MissingArgument "query")
        | Some query =>
            match dict_get "limit" kw with
            | None => inr (query, PInt 10, kwargs)
            | Some limit => inr (query, limit, kwargs)
            end
        end
    | [query] =>
        if dict_contains "query" kw then refuse (MultipleValues "query")
        else
          match dict_get "limit" kw with
          | None => inr (query, PInt 10, kwargs)
          | Some limit => inr (query, limit, kwargs)
          end
    | [query; limit] =>
        if dict_contains "query" kw then refuse (MultipleValues "query")
        else if dict_contains "limit" kw then refuse (MultipleValues "limit")
        else inr (query, limit, kwargs)
    | _ => refuse (TooManyPositional (List.length args))
    end.

(** [async_reverse(self, **kwargs)] takes keyword arguments only. *)
Definition bind_reverse (args : list pyval) (kw : dict) : exn + dict :=
  if negb (unique_keys kw) then refuse RepeatedKeyword
  else if dict_contains "self" kw then refuse (MultipleValues "self")
  else
    match args with
    | [] => inr kw
    | _ => refuse (TooManyPositional (List.length args))
    end.

(** A call of [async_search] on a client, awaited. *)
Definition async_search (args : list pyval) (kw : dict) (w : world)
  : world * completion :=
  match bind_search args kw with
  | inl e => (w, Raise e)
  | inr (query, limit, kwargs) => async_search_body query limit kwargs w
  end.

(** A call of [async_reverse] on a client, awaited. *)
Definition async_reverse (args : list pyval) (kw : dict) (w : world)
  : world * completion :=
  match bind_reverse args kw with
  | inl e => (w, Raise e)
  | inr kwargs => async_reverse_body kwargs w
  end.

End Client.

Arguments refuse {describe A} why : rename.

(** ** Sample surroundings, for running the client on concrete calls *)

(** A stand-in for [str] on values that are not strings. *)
Definition sample_render (v : pyval) : string := "<value>".

Definition sample_base_url : string := "https://example.invalid/geocodage".

Definition sample_describe (why : bind_error) : string :=
  match why with
  | TooManyPositional _ => "too many positional arguments"
  | MultipleValues name => "got multiple values for argument '" ++ name ++ "'"
  | MissingArgument name => "missing required argument '" ++ name ++ "'"
  | RepeatedKeyword => "keyword argument repeated"
  end.

(** A network on which every request fails with the same transport error. *)
Definition sample_timeout : exn := Exn HttpRequestError "Request timeout" None.

Definition failing_network (history : list request) (r : request) : reply :=
  Failure sample_timeout.

(** A service that answers every request with one address. *)
Definition rivoli : pyval :=
  PDict [("properties", PDict [("label", PStr "10 Rue de Rivoli 75004 Paris")])].

Definition answering_network (history : list request) (r : request) : reply :=
  Body (PDict [("features", PList [rivoli])]).

(** A network on which every request is interrupted by an exception that is
    no [HttpRequestError]. *)
Definition sample_cancelled : exn := Exn (OtherError "CancelledError") "" None.

Definition interrupted_network (history : list request) (r : request) : reply :=
  Failure sample_cancelled.

(** A service that finds nothing. *)
Definition empty_network (history : list request) (r : request) : reply :=
  Body (PDict [("features", PList [])]).

Definition fresh_world : world := {| sent := []; logged := [] |}.

(** ** Dictionaries *)

Lemma dict_get_set (k k' : string) (v : pyval) (d : dict) :
  dict_get k (dict_set k' v d) =
  if String.eqb k k' then Some v else dict_get k d.
Proof.
  induction d as [|[k0 v0] d IH]; simpl.
  - reflexivity.
  - destruct (String.eqb k' k0) eqn:E0; simpl.
    + apply String.eqb_eq in E0; subst k0.
      destruct (String.eqb k k'); reflexivity.
    + destruct (String.eqb k k0) eqn:E1.
      * apply String.eqb_eq in E1; subst k0.
        rewrite String.eqb_sym, E0. reflexivity.
      * exact IH.
Qed.

Lemma dict_get_app (k : string) (a b : dict) :
  dict_get k (a ++ b)%list =
  match dict_get k a with
  | Some v => Some v
  | None => dict_get k b
  end.
Proof.
  induction a as [|[k0 v0] a IH]; simpl.
  - reflexivity.
  - destruct (String.eqb k k0); [reflexivity | exact IH].
Qed.

Lemma dict_update_cons (d : dict) (k : string) (v : pyval) (items : dict) :
  dict_update d ((k, v) :: items) = dict_update (dict_set k v d) items.
Proof. reflexivity. Qed.

Lemma dict_update_app (d a b : dict) :
  dict_update d (a ++ b)%list = dict_update (dict_update d a) b.
Proof. unfold dict_update. apply fold_left_app. Qed.

(** With distinct names among the items, an update reads as: the item of that
    name if there is one, what was there before otherwise. *)
Lemma dict_get_update (k : string) (items : dict) :
  unique_keys items = true ->
  forall d,
  dict_get k (dict_update d items) =
  match dict_get k items with
  | Some v => Some v
  | None => dict_get k d
  end.
Proof.
  induction items as [|[k0 v0] items IH]; intros U d.
  - reflexivity.
  - simpl in U. apply andb_true_iff in U. destruct U as [Hk0 U].
    rewrite dict_update_cons, (IH U), dict_get_set. simpl.
    destruct (String.eqb k k0) eqn:E.
    + apply String.eqb_eq in E; subst k0.
      unfold dict_contains in Hk0.
      destruct (dict_get k items); [discriminate | reflexivity].
    + reflexivity.
Qed.

Lemma dict_set_fresh (k : string) (v : pyval) (d : dict) :
  dict_get k d = None -> dict_set k v d = (d ++ [(k, v)])%list.
Proof.
  induction d as [|[k0 v0] d IH]; simpl; intros H.
  - reflexivity.
  - destruct (String.eqb k k0); [discriminate|].
    rewrite (IH H). reflexivity.
Qed.

Lemma unique_keys_middle (a : dict) (k : string) (v : pyval) (b : dict) :
  unique_keys (a ++ (k, v) :: b)%list = true -> dict_get k a = None.
Proof.
  induction a as [|[k0 v0] a IH]; simpl; intros U.
  - reflexivity.
  - apply andb_true_iff in U. destruct U as [Hk0 U].
    destruct (String.eqb k k0) eqn:E.
    + apply String.eqb_eq in E; subst k0.
      unfold dict_contains in Hk0. rewrite dict_get_app in Hk0.
      destruct (dict_get k a); [discriminate|].
      simpl in Hk0. rewrite String.eqb_refl in Hk0. discriminate.
    + exact (IH U).
Qed.

(** Storing items of distinct new names one after the other appends them. *)
Lemma dict_update_fresh (items d : dict) :
  unique_keys (d ++ items)%list = true ->
  dict_update d items = (d ++ items)%list.
Proof.
  revert d. induction items as [|[k v] items IH]; intros d U.
  - simpl. now rewrite app_nil_r.
  - rewrite dict_update_cons.
    rewrite (dict_set_fresh _ _ _ (unique_keys_middle _ _ _ _ U)).
    change ((k, v) :: items) with ([(k, v)] ++ items)%list in U |- *.
    rewrite app_assoc in U |- *. exact (IH _ U).
Qed.

Lemma dict_get_without (k : string) (names : list string) (d : dict) :
  dict_get k (dict_without names d) =
  if existsb (String.eqb k) names then None else dict_get k d.
Proof.
  induction d as [|[k0 v0] d IH]; simpl.
  - now destruct (existsb _ names).
  - destruct (existsb (String.eqb k0) names) eqn:E0; simpl.
    + rewrite IH. destruct (String.eqb k k0) eqn:E.
      * apply String.eqb_eq in E; subst k0. now rewrite E0.
      * reflexivity.
    + destruct (String.eqb k k0) eqn:E.
      * apply String.eqb_eq in E; subst k0. now rewrite E0.
      * exact IH.
Qed.

Lemma unique_keys_without (names : list string) (d : dict) :
  unique_keys d = true -> unique_keys (dict_without names d) = true.
Proof.
  induction d as [|[k0 v0] d IH]; simpl; intros U.
  - reflexivity.
  - apply andb_true_iff in U. destruct U as [Hk0 U].
    destruct (existsb (String.eqb k0) names) eqn:E0; simpl.
    + exact (IH U).
    + rewrite (IH U), andb_true_r.
      unfold dict_contains in *. rewrite dict_get_without, E0.
      exact Hk0.
Qed.

(** ** Strings *)

Lemma append_empty_r (s : string) : s ++ "" = s.
Proof.
  induction s as [|c s IH]; simpl; [reflexivity | now rewrite IH].
Qed.

Lemma occurs_in_suffix (p s : string) : occurs_in s (p ++ s).
Proof.
  exists p, "". now rewrite append_empty_r.
Qed.

(** ** The response check *)

Section ResponseCheck.

Variable render : pyval -> string.

Local Abbreviation check := (_check_response render).

(** The first branch, for a dictionary that has the key: the truth value of
    what is stored under it decides between a return and [AddressNotFound]. *)
Lemma check_features_present (d : dict) (v : pyval) :
  dict_get "features" d = Some v ->
  check (PDict d) =
  if truthy v then Return v
  else Raise (Exn AddressNotFound "No addresses found for the given query." None).
Proof.
  intros H. unfold _check_response.
  assert (T : truthy (PDict d) = true) by (destruct d; [discriminate | reflexivity]).
  rewrite T. simpl. unfold dict_contains. rewrite H. simpl.
  destruct (truthy v); reflexivity.
Qed.

(** The later tests, for a non-empty dictionary that lacks the key. *)
Lemma check_features_absent (d : dict) :
  d <> [] ->
  dict_get "features" d = None ->
  check (PDict d) =
  match dict_get "error" d with
  | Some err =>
      Raise (Exn AddressFrException
               ("Error in response: " ++ format_value render err) None)
  | None =>
      Raise (Exn AddressFrException "No features found in the response." None)
  end.
Proof.
  intros Hd H. unfold _check_response.
  assert (T : truthy (PDict d) = true) by (destruct d; [contradiction | reflexivity]).
  rewrite T. simpl. unfold dict_contains. rewrite H. simpl.
  destruct (dict_get "error" d); reflexivity.
Qed.

(** Anything false in a truth test, and anything that is no dictionary. *)
Lemma check_not_a_filled_dict (body : pyval) :
  truthy body = false \/ isinstance_dict body = false ->
  check body =
  Raise (Exn AddressFrException "Invalid response from address service." None).
Proof.
  intros [H | H]; unfold _check_response; rewrite H; simpl.
  - reflexivity.
  - rewrite andb_false_r, orb_true_r. reflexivity.
Qed.

(** C1: a body that is a dictionary holding a non-empty list under
    ['features'] is answered with exactly that list, whatever else the
    dictionary holds, an ['error'] entry included. *)
Theorem check_response_returns_features (d : dict) (l : list pyval) :
  dict_get "features" d = Some (PList l) ->
  l <> [] ->
  check (PDict d) = Return (PList l).
Proof.
  intros H Hl. rewrite (check_features_present _ _ H).
  destruct l; [contradiction | reflexivity].
Qed.

(** C3: a body that is a dictionary holding the empty list under
    ['features'] raises [AddressNotFound]; so does the body
    [{"features": []}]. *)
Theorem check_response_empty_features (d : dict) :
  dict_get "features" d = Some (PList []) ->
  check (PDict d) =
  Raise (Exn AddressNotFound "No addresses found for the given query." None).
Proof.
  intros H. now rewrite (check_features_present _ _ H).
Qed.

(** C5, as the code has it: a body that is false in a truth test (the empty
    dictionary, [None], an empty list or string, zero, [False]) or that is not
    a dictionary raises [AddressFrException] with the message
    ["Invalid response from address service."]. *)
Theorem check_response_invalid_body (body : pyval) :
  truthy body = false \/ isinstance_dict body = false ->
  exists e,
    check body = Raise e /\
    exn_cls e = AddressFrException /\
    exn_msg e = "Invalid response from address service." /\
    exn_cause e = None.
Proof.
  intros H. rewrite (check_not_a_filled_dict _ H).
  eexists; repeat split.
Qed.

(** C6: a non-empty dictionary without ['features'] but with ['error'] raises
    [AddressFrException], and the text of the error value occurs in the
    message: the message is ["Error in response: "] followed by that text,
    which for a string value is the string itself. *)
Theorem check_response_error_entry (d : dict) (err : pyval) :
  d <> [] ->
  dict_get "features" d = None ->
  dict_get "error" d = Some err ->
  exists e,
    check (PDict d) = Raise e /\
    exn_cls e = AddressFrException /\
    exn_msg e = "Error in response: " ++ format_value render err /\
    occurs_in (format_value render err) (exn_msg e) /\
    (forall s, err = PStr s -> occurs_in s (exn_msg e)).
Proof.
  intros Hd Hf He. rewrite (check_features_absent _ Hd Hf), He.
  eexists; repeat split.
  - apply occurs_in_suffix.
  - intros s ->. apply occurs_in_suffix.
Qed.

(** C7: a non-empty dictionary with neither ['features'] nor ['error'] raises
    [AddressFrException] with a message that starts with
    ["No features found"]. *)
Theorem check_response_no_features (d : dict) :
  d <> [] ->
  dict_get "features" d = None ->
  dict_get "error" d = None ->
  exists e,
    check (PDict d) = Raise e /\
    exn_cls e = AddressFrException /\
    exn_msg e = "No features found in the response." /\
    starts_with "No features found" (exn_msg e) = true.
Proof.
  intros Hd Hf He. rewrite (check_features_absent _ Hd Hf), He.
  eexists; repeat split.
Qed.

(** C8: on every body the check either returns, from its first branch, the
    true value stored under ['features'] of a non-empty dictionary, or raises
    [AddressNotFound] or [AddressFrException]; it never runs off its last
    statement, and never hands [None] to its caller. *)
Theorem check_response_never_falls_off (body : pyval) :
  ((exists v,
      check body = Return v /\
      truthy body = true /\ isinstance_dict body = true /\
      item "features" body = inr v /\ truthy v = true)
   \/
   (exists e,
      check body = Raise e /\
      (exn_cls e = AddressNotFound \/ exn_cls e = AddressFrException)))
  /\ check body <> FallOff
  /\ returned_value (check body) <> Some PNone.
Proof.
  assert (Cases :
    (truthy body = false \/ isinstance_dict body = false) \/
    exists d, body = PDict d /\ d <> []).
  { destruct body; simpl; auto.
    destruct d; [auto | right; eexists; split; [reflexivity | discriminate]]. }
  destruct Cases as [H | (d & -> & Hd)].
  - rewrite (check_not_a_filled_dict _ H).
    split; [right | split; discriminate].
    eexists; split; [reflexivity | now right].
  - destruct (dict_get "features" d) as [v|] eqn:Hf.
    + rewrite (check_features_present _ _ Hf).
      destruct (truthy v) eqn:Tv.
      * split; [left | split; [discriminate|]].
        -- exists v. repeat split; auto.
           ++ destruct d; [contradiction | reflexivity].
           ++ simpl. now rewrite Hf.
        -- simpl. intros E. injection E as ->. discriminate Tv.
      * split; [right | split; discriminate].
        eexists; split; [reflexivity | now left].
    + rewrite (check_features_absent _ Hd Hf).
      destruct (dict_get "error" d);
        (split; [right | split; discriminate]);
        eexists; (split; [reflexivity | now right]).
Qed.

(** C10: the test on ['features'] is a truth test. Under a dictionary that has
    the key, a value that is false in a truth test raises [AddressNotFound],
    and [None], [0], the empty string, [False] and the empty list are such
    values; a value that is true is returned as it is, and a non-empty
    string and a non-zero number are such values although they are no lists
    of records. *)
Theorem check_response_truth_test (d : dict) (v : pyval) :
  dict_get "features" d = Some v ->
  (truthy v = false ->
   check (PDict d) =
   Raise (Exn AddressNotFound "No addresses found for the given query." None))
  /\ (truthy v = true -> check (PDict d) = Return v)
  /\ (truthy PNone = false /\ truthy (PInt 0) = false /\
      truthy (PStr "") = false /\ truthy (PBool false) = false /\
      truthy (PList []) = false)
  /\ (forall s, s <> "" -> truthy (PStr s) = true)
  /\ (forall n, n <> 0%Z -> truthy (PInt n) = true).
Proof.
  intros H. rewrite (check_features_present _ _ H).
  repeat split.
  - now intros ->.
  - now intros ->.
  - intros s Hs. simpl. destruct (String.eqb s "") eqn:E; [|reflexivity].
    apply String.eqb_eq in E. contradiction.
  - intros n Hn. simpl. destruct (Z.eqb n 0) eqn:E; [|reflexivity].
    apply Z.eqb_eq in E. contradiction.
Qed.

End ResponseCheck.

(** ** The two operations *)

Section Operations.

Variable render : pyval -> string.
Variable API_BASE_URL : string.
Variable network : list request -> request -> reply.
Variable describe : bind_error -> string.

Local Abbreviation request_layer := (async_request network).
Local Abbreviation search := (async_search render API_BASE_URL network describe).
Local Abbreviation reverse := (async_reverse render API_BASE_URL network describe).
Local Abbreviation bound_search := (bind_search describe).
Local Abbreviation bound_reverse := (bind_reverse describe).

(** What binding leaves in [kwargs]: the keyword arguments other than
    [query] and [limit], still of distinct names. *)
Lemma bind_search_kwargs (args : list pyval) (kw : dict)
  (query limit : pyval) (kwargs : dict) :
  bound_search args kw = inr (query, limit, kwargs) ->
  unique_keys kw = true /\ kwargs = dict_without ["query"; "limit"] kw.
Proof.
  unfold bind_search, refuse. intros H.
  destruct (unique_keys kw); simpl in H; [|discriminate].
  split; [reflexivity|].
  destruct (dict_contains "self" kw); [discriminate|].
  destruct args as [|a0 [|a1 [|a2 args]]].
  - destruct (dict_get "query" kw); [|discriminate].
    destruct (dict_get "limit" kw); now inversion H.
  - destruct (dict_contains "query" kw); [discriminate|].
    destruct (dict_get "limit" kw); now inversion H.
  - destruct (dict_contains "query" kw); [discriminate|].
    destruct (dict_contains "limit" kw); [discriminate|].
    now inversion H.
  - discriminate.
Qed.

(** Where [limit] comes from: the second positional argument, else the
    keyword of that name, else the default. *)
Lemma bind_search_limit (args : list pyval) (kw : dict)
  (query limit : pyval) (kwargs : dict) :
  bound_search args kw = inr (query, limit, kwargs) ->
  match nth_error args 1, dict_get "limit" kw with
  | Some l, None => limit = l
  | None, Some l => limit = l
  | None, None => limit = PInt 10
  | Some _, Some _ => False
  end.
Proof.
  unfold bind_search, refuse. intros H.
  destruct (unique_keys kw); simpl in H; [|discriminate].
  destruct (dict_contains "self" kw); [discriminate|].
  destruct args as [|a0 [|a1 [|a2 args]]]; simpl.
  - destruct (dict_get "query" kw); [|discriminate].
    destruct (dict_get "limit" kw); now inversion H.
  - destruct (dict_contains "query" kw); [discriminate|].
    destruct (dict_get "limit" kw); now inversion H.
  - destruct (dict_contains "query" kw); [discriminate|].
    unfold dict_contains in H.
    destruct (dict_get "limit" kw); [discriminate|].
    now inversion H.
  - discriminate.
Qed.

Lemma bind_reverse_kwargs (args : list pyval) (kw kwargs : dict) :
  bound_reverse args kw = inr kwargs ->
  unique_keys kw = true /\ kwargs = kw /\ args = [].
Proof.
  unfold bind_reverse, refuse. intros H.
  destruct (unique_keys kw); simpl in H; [|discriminate].
  destruct (dict_contains "self" kw); [discriminate|].
  destruct args; [|discriminate].
  now inversion H.
Qed.

(** The parameter dictionary of a search, read key by key. *)
Lemma search_params_get (query limit : pyval) (kwargs : dict) (k : string) :
  unique_keys kwargs = true ->
  dict_get k (dict_update [] ([("q", query); ("limit", limit)] ++ kwargs)%list) =
  match dict_get k kwargs with
  | Some v => Some v
  | None =>
      if String.eqb k "q" then Some query
      else if String.eqb k "limit" then Some limit
      else None
  end.
Proof.
  intros U. rewrite dict_update_app, (dict_get_update _ _ U).
  destruct (dict_get k kwargs); reflexivity.
Qed.

(** One step of either body, after the request layer has raised. *)
Lemma search_body_on_failure (query limit : pyval) (kwargs : dict)
  (w : world) (e : exn) :
  snd (request_layer (API_BASE_URL ++ "/search")
         (dict_update [] ([("q", query); ("limit", limit)] ++ kwargs)%list) w)
  = inl e ->
  is_HttpRequestError e = true ->
  async_search_body render API_BASE_URL network query limit kwargs w =
  ({| sent := (sent w ++
               [mkRequest GET (API_BASE_URL ++ "/search")
                  (dict_update []
                     ([("q", query); ("limit", limit)] ++ kwargs)%list)])%list;
      logged := (logged w ++ [mkLog "Failed to query address: %s" e])%list |},
   Raise (Exn AddressNotFound "Address not found." (Some e))).
Proof.
  unfold async_search_body, async_request. simpl. intros H He.
  destruct (network _ _); [discriminate|].
  injection H as ->. rewrite He. reflexivity.
Qed.

Lemma reverse_body_on_failure (kwargs : dict) (w : world) (e : exn) :
  snd (request_layer (API_BASE_URL ++ "/reverse") (dict_update [] kwargs) w)
  = inl e ->
  is_HttpRequestError e = true ->
  async_reverse_body render API_BASE_URL network kwargs w =
  ({| sent := (sent w ++
               [mkRequest GET (API_BASE_URL ++ "/reverse")
                  (dict_update [] kwargs)])%list;
      logged := (logged w ++ [mkLog "Failed to query address: %s" e])%list |},
   Raise (Exn AddressNotFound "Address not found." (Some e))).
Proof.
  unfold async_reverse_body, async_request. simpl. intros H He.
  destruct (network _ _); [discriminate|].
  injection H as ->. rewrite He. reflexivity.
Qed.

(** Either body sends exactly one request, whatever comes back. *)
Lemma search_body_sent (query limit : pyval) (kwargs : dict) (w : world) :
  sent (fst (async_search_body render API_BASE_URL network
               query limit kwargs w)) =
  (sent w ++
   [mkRequest GET (API_BASE_URL ++ "/search")
      (dict_update [] ([("q", query); ("limit", limit)] ++ kwargs)%list)])%list.
Proof.
  unfold async_search_body, async_request. simpl.
  destruct (network _ _) as [v|e]; [reflexivity|].
  destruct (is_HttpRequestError e); reflexivity.
Qed.

Lemma reverse_body_sent (kwargs : dict) (w : world) :
  sent (fst (async_reverse_body render API_BASE_URL network kwargs w)) =
  (sent w ++
   [mkRequest GET (API_BASE_URL ++ "/reverse") (dict_update [] kwargs)])%list.
Proof.
  unfold async_reverse_body, async_request. simpl.
  destruct (network _ _) as [v|e]; [reflexivity|].
  destruct (is_HttpRequestError e); reflexivity.
Qed.

(** A keyword argument that no named parameter takes reaches [kwargs]. *)
Lemma bind_search_passes (args : list pyval) (kw : dict)
  (query limit : pyval) (kwargs : dict) (k : string) :
  bound_search args kw = inr (query, limit, kwargs) ->
  k <> "query" -> k <> "limit" ->
  dict_get k kwargs = dict_get k kw.
Proof.
  intros H Hq Hl. destruct (bind_search_kwargs _ _ _ _ _ H) as [_ ->].
  rewrite dict_get_without. simpl.
  destruct (String.eqb k "query") eqn:E1;
    [apply String.eqb_eq in E1; contradiction|].
  destruct (String.eqb k "limit") eqn:E2;
    [apply String.eqb_eq in E2; contradiction|].
  reflexivity.
Qed.

Lemma bind_search_unique (args : list pyval) (kw : dict)
  (query limit : pyval) (kwargs : dict) :
  bound_search args kw = inr (query, limit, kwargs) ->
  unique_keys kwargs = true.
Proof.
  intros H. destruct (bind_search_kwargs _ _ _ _ _ H) as [U ->].
  now apply unique_keys_without.
Qed.

(** C2: when the request layer raises an [HttpRequestError] in a call of
    [async_search] or [async_reverse], the call raises [AddressNotFound] with
    the message ["Address not found."] and the transport error as its cause;
    one request has been sent, no second one, and the transport error has
    been logged. *)
Theorem transport_error_becomes_not_found
  (args : list pyval) (kw : dict) (w : world) (e : exn) :
  is_HttpRequestError e = true ->
  (forall query limit kwargs,
     bound_search args kw = inr (query, limit, kwargs) ->
     snd (request_layer (API_BASE_URL ++ "/search")
            (dict_update [] ([("q", query); ("limit", limit)] ++ kwargs)%list) w)
     = inl e ->
     exists w' raised r,
       search args kw w = (w', Raise raised) /\
       exn_cls raised = AddressNotFound /\
       exn_msg raised = "Address not found." /\
       starts_with "Address not found" (exn_msg raised) = true /\
       exn_cause raised = Some e /\
       sent w' = (sent w ++ [r])%list /\
       logged w' = (logged w ++ [mkLog "Failed to query address: %s" e])%list)
  /\
  (forall kwargs,
     bound_reverse args kw = inr kwargs ->
     snd (request_layer (API_BASE_URL ++ "/reverse") (dict_update [] kwargs) w)
     = inl e ->
     exists w' raised r,
       reverse args kw w = (w', Raise raised) /\
       exn_cls raised = AddressNotFound /\
       exn_msg raised = "Address not found." /\
       starts_with "Address not found" (exn_msg raised) = true /\
       exn_cause raised = Some e /\
       sent w' = (sent w ++ [r])%list /\
       logged w' = (logged w ++ [mkLog "Failed to query address: %s" e])%list).
Proof.
  intros He. split.
  - intros query limit kwargs Hb Hr. unfold async_search. rewrite Hb.
    rewrite (search_body_on_failure _ _ _ _ _ Hr He).
    do 3 eexists. repeat split.
  - intros kwargs Hb Hr. unfold async_reverse. rewrite Hb.
    rewrite (reverse_body_on_failure _ _ _ Hr He).
    do 3 eexists. repeat split.
Qed.

(** C4: a call of [async_search] that binds sends one GET to
    [API_BASE_URL + "/search"] whose parameters are ['q'] for [query] and
    ['limit'] for [limit], [10] when the call gives none, merged with the
    other keyword arguments, each under its own name with its own value; a
    call of [async_reverse] that binds sends one GET to
    [API_BASE_URL + "/reverse"] whose parameters are the keyword arguments
    as they came. *)
Theorem search_and_reverse_requests
  (args : list pyval) (kw : dict) (w : world) :
  (forall query limit kwargs,
     bound_search args kw = inr (query, limit, kwargs) ->
     exists params,
       sent (fst (search args kw w)) =
       (sent w ++ [mkRequest GET (API_BASE_URL ++ "/search") params])%list /\
       (forall k,
          dict_get k params =
          match dict_get k kwargs with
          | Some v => Some v
          | None =>
              if String.eqb k "q" then Some query
              else if String.eqb k "limit" then Some limit
              else None
          end) /\
       (forall k v,
          dict_get k kw = Some v -> k <> "query" -> k <> "limit" ->
          dict_get k params = Some v) /\
       (nth_error args 1 = None -> dict_get "limit" kw = None ->
        limit = PInt 10))
  /\
  (forall kwargs,
     bound_reverse args kw = inr kwargs ->
     sent (fst (reverse args kw w)) =
     (sent w ++ [mkRequest GET (API_BASE_URL ++ "/reverse") kw])%list).
Proof.
  split.
  - intros query limit kwargs Hb.
    pose proof (bind_search_unique _ _ _ _ _ Hb) as U.
    eexists. unfold async_search. rewrite Hb.
    split; [apply search_body_sent|]. split; [|split].
    + intros k. now apply search_params_get.
    + intros k v Hk Hq Hl. rewrite (search_params_get _ _ _ _ U).
      rewrite (bind_search_passes _ _ _ _ _ k Hb Hq Hl), Hk. reflexivity.
    + intros Ha Hk. pose proof (bind_search_limit _ _ _ _ _ Hb) as L.
      rewrite Ha, Hk in L. exact L.
  - intros kwargs Hb.
    destruct (bind_reverse_kwargs _ _ _ Hb) as (U & -> & ->).
    unfold async_reverse. rewrite Hb, reverse_body_sent.
    rewrite (dict_update_fresh kw []); [reflexivity | exact U].
Qed.

(** C9, as the code has it: a keyword argument ['q'] of a call that binds
    replaces [query] in the parameters sent, as would any entry of [kwargs]
    replace a fixed entry of its name, since [kwargs] is stored after them;
    a keyword argument ['limit'] never is an entry of [kwargs]: it is the
    value of the parameter [limit], and a call that also gives [limit] by
    position is refused with [TypeError] and sends nothing. *)
Theorem search_keyword_precedence
  (args : list pyval) (kw : dict) (w : world) :
  (forall query limit kwargs,
     bound_search args kw = inr (query, limit, kwargs) ->
     exists params,
       sent (fst (search args kw w)) =
       (sent w ++ [mkRequest GET (API_BASE_URL ++ "/search") params])%list /\
       (forall v, dict_get "q" kw = Some v -> dict_get "q" params = Some v) /\
       dict_get "limit" kwargs = None /\
       dict_get "limit" params = Some limit /\
       (forall v, dict_get "limit" kw = Some v ->
                  limit = v /\ nth_error args 1 = None))
  /\
  (forall v,
     dict_get "limit" kw = Some v -> nth_error args 1 <> None ->
     exists e,
       search args kw w = (w, Raise e) /\ exn_cls e = TypeError)
  /\
  (forall query limit kwargs k v,
     unique_keys kwargs = true ->
     dict_get k kwargs = Some v ->
     dict_get k
       (dict_update [] ([("q", query); ("limit", limit)] ++ kwargs)%list)
     = Some v).
Proof.
  split; [|split].
  - intros query limit kwargs Hb.
    pose proof (bind_search_unique _ _ _ _ _ Hb) as U.
    pose proof (bind_search_limit _ _ _ _ _ Hb) as L.
    assert (Hl : dict_get "limit" kwargs = None).
    { destruct (bind_search_kwargs _ _ _ _ _ Hb) as [_ ->].
      now rewrite dict_get_without. }
    eexists. unfold async_search. rewrite Hb.
    split; [apply search_body_sent|]. split; [|split; [|split]].
    + intros v Hv. rewrite (search_params_get _ _ _ _ U).
      rewrite (bind_search_passes _ _ _ _ _ "q" Hb), Hv;
        [reflexivity | discriminate | discriminate].
    + exact Hl.
    + rewrite (search_params_get _ _ _ _ U), Hl. reflexivity.
    + intros v Hv. rewrite Hv in L.
      destruct (nth_error args 1); [contradiction | now split].
  - intros v Hv Ha. unfold async_search, bind_search, refuse.
    unfold dict_contains. rewrite Hv.
    destruct (unique_keys kw); simpl;
      [|eexists; split; reflexivity].
    destruct (dict_get "self" kw);
      [eexists; split; reflexivity|].
    destruct args as [|a0 [|a1 [|a2 args]]]; simpl in Ha;
      try (exfalso; apply Ha; reflexivity).
    + destruct (dict_get "query" kw); eexists; split; reflexivity.
    + eexists; split; reflexivity.
  - intros query limit kwargs k v U Hk.
    now rewrite (search_params_get _ _ _ _ U), Hk.
Qed.

End Operations.

(** ** The properties on concrete bodies and calls *)

Lemma check_response_returns_features_witness :
  _check_response sample_render
    (PDict [("error", PStr "ignored"); ("features", PList [rivoli])])
  = Return (PList [rivoli]).
Proof.
  apply (check_response_returns_features sample_render
           [("error", PStr "ignored"); ("features", PList [rivoli])] [rivoli]).
  - reflexivity.
  - discriminate.
Defined.

Lemma check_response_empty_features_witness :
  _check_response sample_render (PDict [("features", PList [])])
  = Raise (Exn AddressNotFound "No addresses found for the given query." None).
Proof.
  apply (check_response_empty_features sample_render [("features", PList [])]).
  reflexivity.
Defined.

(** The message the claim C5 quotes is not the one the code raises with. *)
Lemma check_response_invalid_body_counterexample :
  ~ (exists e,
       _check_response sample_render (PDict []) = Raise e /\
       exn_cls e = AddressFrException /\
       exn_msg e = "Invalid response from service").
Proof.
  intros (e & H & _ & M). vm_compute in H. injection H as <-.
  discriminate M.
Qed.

Lemma check_response_invalid_body_witness :
  exists e,
    _check_response sample_render PNone = Raise e /\
    exn_cls e = AddressFrException /\
    exn_msg e = "Invalid response from address service." /\
    exn_cause e = None.
Proof.
  apply (check_response_invalid_body sample_render PNone).
  left. reflexivity.
Defined.

Lemma check_response_error_entry_witness :
  exists e,
    _check_response sample_render (PDict [("error", PStr "bad query")])
    = Raise e /\
    exn_cls e = AddressFrException /\
    exn_msg e = "Error in response: bad query" /\
    occurs_in "bad query" (exn_msg e).
Proof.
  destruct (check_response_error_entry sample_render
              [("error", PStr "bad query")] (PStr "bad query"))
    as (e & H & C & M & _ & O).
  - discriminate.
  - reflexivity.
  - reflexivity.
  - exists e. repeat split; [exact H | exact C | exact M |].
    apply O. reflexivity.
Defined.

Lemma check_response_no_features_witness :
  exists e,
    _check_response sample_render (PDict [("type", PStr "FeatureCollection")])
    = Raise e /\
    exn_cls e = AddressFrException /\
    exn_msg e = "No features found in the response." /\
    starts_with "No features found" (exn_msg e) = true.
Proof.
  apply (check_response_no_features sample_render
           [("type", PStr "FeatureCollection")]).
  - discriminate.
  - reflexivity.
  - reflexivity.
Defined.

Lemma check_response_truth_test_witness :
  _check_response sample_render (PDict [("features", PInt 0)])
  = Raise (Exn AddressNotFound "No addresses found for the given query." None)
  /\
  _check_response sample_render (PDict [("features", PStr "oops")])
  = Return (PStr "oops").
Proof.
  split.
  - apply (check_response_truth_test sample_render
             [("features", PInt 0)] (PInt 0)); reflexivity.
  - apply (check_response_truth_test sample_render
             [("features", PStr "oops")] (PStr "oops")); reflexivity.
Defined.

Lemma transport_error_becomes_not_found_witness :
  exists w' raised r,
    async_search sample_render sample_base_url failing_network sample_describe
      [PStr "Paris"] [] fresh_world
    = (w', Raise raised) /\
    exn_cls raised = AddressNotFound /\
    exn_msg raised = "Address not found." /\
    starts_with "Address not found" (exn_msg raised) = true /\
    exn_cause raised = Some sample_timeout /\
    sent w' = (sent fresh_world ++ [r])%list /\
    logged w' =
    (logged fresh_world ++
     [mkLog "Failed to query address: %s" sample_timeout])%list.
Proof.
  apply (transport_error_becomes_not_found
           sample_render sample_base_url failing_network sample_describe
           [PStr "Paris"] [] fresh_world sample_timeout eq_refl)
    with (query := PStr "Paris") (limit := PInt 10) (kwargs := []);
    reflexivity.
Defined.

Lemma search_and_reverse_requests_witness :
  exists params,
    sent (fst (async_search sample_render sample_base_url answering_network
                 sample_describe
                 [PStr "10 rue de Rivoli"] [("postcode", PStr "75004")]
                 fresh_world)) =
    (sent fresh_world ++
     [mkRequest GET (sample_base_url ++ "/search") params])%list /\
    dict_get "q" params = Some (PStr "10 rue de Rivoli") /\
    dict_get "limit" params = Some (PInt 10) /\
    dict_get "postcode" params = Some (PStr "75004").
Proof.
  destruct (search_and_reverse_requests
              sample_render sample_base_url answering_network sample_describe
              [PStr "10 rue de Rivoli"] [("postcode", PStr "75004")]
              fresh_world) as [S _].
  destruct (S (PStr "10 rue de Rivoli") (PInt 10) [("postcode", PStr "75004")]
              eq_refl) as (params & Hs & Hg & _ & _).
  exists params. split; [exact Hs|].
  split; [|split]; rewrite Hg; reflexivity.
Defined.

(** The claim C9 on a keyword ['limit'] next to a positional limit: the call
    is refused and no parameter dictionary is sent at all. *)
Lemma search_keyword_precedence_counterexample :
  async_search sample_render sample_base_url answering_network sample_describe
    [PStr "Paris"; PInt 5] [("limit", PInt 7)] fresh_world
  = (fresh_world,
     Raise (Exn TypeError "got multiple values for argument 'limit'" None))
  /\
  ~ (exists r,
       sent (fst (async_search sample_render sample_base_url answering_network
                    sample_describe
                    [PStr "Paris"; PInt 5] [("limit", PInt 7)] fresh_world))
       = [r] /\
       dict_get "limit" (req_params r) = Some (PInt 7)).
Proof.
  split; [reflexivity|].
  intros (r & H & _). vm_compute in H. discriminate H.
Qed.

Lemma search_keyword_precedence_witness :
  exists params,
    sent (fst (async_search sample_render sample_base_url answering_network
                 sample_describe
                 [PStr "Paris"] [("q", PStr "Lyon"); ("limit", PInt 7)]
                 fresh_world)) =
    (sent fresh_world ++
     [mkRequest GET (sample_base_url ++ "/search") params])%list /\
    dict_get "q" params = Some (PStr "Lyon") /\
    dict_get "limit" params = Some (PInt 7).
Proof.
  destruct (search_keyword_precedence
              sample_render sample_base_url answering_network sample_describe
              [PStr "Paris"] [("q", PStr "Lyon"); ("limit", PInt 7)]
              fresh_world) as [S _].
  destruct (S (PStr "Paris") (PInt 7) [("q", PStr "Lyon")] eq_refl)
    as (params & Hs & Hq & _ & Hl & _).
  exists params. split; [exact Hs|]. split; [|exact Hl].
  apply Hq. reflexivity.
Defined.

(** The two scenarios of the specification, run end to end. *)
Example search_rivoli :
  snd (async_search sample_render sample_base_url answering_network
         sample_describe
         [PStr "10 rue de Rivoli"] [("limit", PInt 5)] fresh_world)
  = Return (PList [rivoli]).
Proof. reflexivity. Qed.

Example reverse_nothing_found :
  snd (async_reverse sample_render sample_base_url empty_network
         sample_describe
         [] [("lat", PFloat 48.85%float); ("lon", PFloat 2.35%float)]
         fresh_world)
  = Raise (Exn AddressNotFound "No addresses found for the given query." None).
Proof. reflexivity. Qed.

(** ** More on the response check: when exactly each outcome occurs *)

Section ResponseCheckOutcomes.

Variable render : pyval -> string.

Local Abbreviation check := (_check_response render).

(** The three ways a body can be, as the check tells them apart. *)
Lemma body_cases (body : pyval) :
  (exists d v, body = PDict d /\ dict_get "features" d = Some v)
  \/ (exists d, body = PDict d /\ d <> [] /\ dict_get "features" d = None)
  \/ (truthy body = false \/ isinstance_dict body = false).
Proof.
  destruct body; try (right; right; right; reflexivity).
  destruct (dict_get "features" d) as [v|] eqn:Hf.
  - left. now exists d, v.
  - destruct d as [|kv d'].
    + right; right; left; reflexivity.
    + right; left. eexists; repeat split; [discriminate | exact Hf].
Qed.

(** X1: the check returns [v] exactly when the body is a dictionary that
    holds [v] under ['features'] and [v] is true in a truth test. *)
Theorem check_response_returns_iff (body v : pyval) :
  check body = Return v <->
  exists d, body = PDict d /\ dict_get "features" d = Some v /\ truthy v = true.
Proof.
  split.
  - intros H. destruct (body_cases body) as [(d & x & -> & Hf) | [(d & -> & Hd & Hf) | Hb]].
    + rewrite (check_features_present _ _ _ Hf) in H.
      destruct (truthy x) eqn:Tx; [|discriminate].
      injection H as ->. now exists d.
    + rewrite (check_features_absent _ _ Hd Hf) in H.
      destruct (dict_get "error" d); discriminate.
    + rewrite (check_not_a_filled_dict _ _ Hb) in H. discriminate.
  - intros (d & -> & Hf & Tv).
    now rewrite (check_features_present _ _ _ Hf), Tv.
Qed.

(** X2: the check raises [AddressNotFound] exactly when the body is a
    dictionary that has the key ['features'] with a value that is false in a
    truth test; the message then is the one on the empty result. *)
Theorem check_response_not_found_iff (body : pyval) :
  (exists e, check body = Raise e /\ exn_cls e = AddressNotFound) <->
  (exists d v,
     body = PDict d /\ dict_get "features" d = Some v /\ truthy v = false).
Proof.
  split.
  - intros (e & H & C).
    destruct (body_cases body) as [(d & x & -> & Hf) | [(d & -> & Hd & Hf) | Hb]].
    + rewrite (check_features_present _ _ _ Hf) in H.
      destruct (truthy x) eqn:Tx; [discriminate|]. now exists d, x.
    + rewrite (check_features_absent _ _ Hd Hf) in H.
      destruct (dict_get "error" d); injection H as <-; discriminate.
    + rewrite (check_not_a_filled_dict _ _ Hb) in H.
      injection H as <-. discriminate.
  - intros (d & v & -> & Hf & Tv).
    rewrite (check_features_present _ _ _ Hf), Tv.
    eexists; split; reflexivity.
Qed.

(** X3: the check raises [AddressFrException] exactly when the body is not a
    dictionary with a ['features'] key, the empty dictionary included; and
    no exception the check raises has a cause. *)
Theorem check_response_invalid_iff (body : pyval) :
  ((exists e, check body = Raise e /\ exn_cls e = AddressFrException) <->
   has_key "features" body = false)
  /\ (forall e, check body = Raise e -> exn_cause e = None).
Proof.
  destruct (body_cases body) as [(d & x & -> & Hf) | [(d & -> & Hd & Hf) | Hb]].
  - rewrite (check_features_present _ _ _ Hf).
    simpl. unfold dict_contains. rewrite Hf. split; [split|].
    + intros (e & H & C). destruct (truthy x); [discriminate|].
      injection H as <-. discriminate.
    + discriminate.
    + intros e H. destruct (truthy x); [discriminate|]. now injection H as <-.
  - rewrite (check_features_absent _ _ Hd Hf).
    simpl. unfold dict_contains. rewrite Hf. split; [split|].
    + reflexivity.
    + intros _. destruct (dict_get "error" d); eexists; split; reflexivity.
    + intros e H. destruct (dict_get "error" d); now injection H as <-.
  - rewrite (check_not_a_filled_dict _ _ Hb). split; [split|].
    + intros _. destruct body; try reflexivity.
      destruct Hb as [Hb | Hb]; [|discriminate].
      destruct d; [reflexivity | discriminate].
    + intros _. eexists; split; reflexivity.
    + intros e H. now injection H as <-.
Qed.

(** X4: of a non-empty dictionary the check reads the entries ['features']
    and ['error'] and nothing else: two such bodies that agree on these two
    entries are checked alike. *)
Theorem check_response_reads_two_entries (d1 d2 : dict) :
  d1 <> [] -> d2 <> [] ->
  dict_get "features" d1 = dict_get "features" d2 ->
  dict_get "error" d1 = dict_get "error" d2 ->
  check (PDict d1) = check (PDict d2).
Proof.
  intros H1 H2 Hf He.
  destruct (dict_get "features" d2) as [v|] eqn:Hf2.
  - now rewrite (check_features_present _ _ _ Hf), (check_features_present _ _ _ Hf2).
  - now rewrite (check_features_absent _ _ H1 Hf), (check_features_absent _ _ H2 Hf2), He.
Qed.

End ResponseCheckOutcomes.

(** ** More on the two operations: every way a call can end *)

Section OperationOutcomes.

Variable render : pyval -> string.
Variable API_BASE_URL : string.
Variable network : list request -> request -> reply.
Variable describe : bind_error -> string.

Local Abbreviation request_layer := (async_request network).
Local Abbreviation search := (async_search render API_BASE_URL network describe).
Local Abbreviation reverse := (async_reverse render API_BASE_URL network describe).
Local Abbreviation bound_search := (bind_search describe).
Local Abbreviation bound_reverse := (bind_reverse describe).
Local Abbreviation search_request query limit kwargs :=
  (mkRequest GET (API_BASE_URL ++ "/search")
     (dict_update [] ([("q", query); ("limit", limit)] ++ kwargs)%list)).
Local Abbreviation reverse_request kwargs :=
  (mkRequest GET (API_BASE_URL ++ "/reverse") (dict_update [] kwargs)).
Local Abbreviation after_request w r :=
  (mkWorld (app (sent w) (cons r nil)) (logged w)).

(** Either body, read off by the reply of the network. *)
Lemma search_body_run (query limit : pyval) (kwargs : dict) (w : world) :
  async_search_body render API_BASE_URL network query limit kwargs w =
  let r := search_request query limit kwargs in
  match network (sent w) r with
  | Body v => (after_request w r, _check_response render v)
  | Failure e =>
      if is_HttpRequestError e
      then (log_error "Failed to query address: %s" e (after_request w r),
            Raise (Exn AddressNotFound "Address not found." (Some e)))
      else (after_request w r, Raise e)
  end.
Proof.
  unfold async_search_body, async_request. simpl.
  destruct (network _ _); reflexivity.
Qed.

Lemma reverse_body_run (kwargs : dict) (w : world) :
  async_reverse_body render API_BASE_URL network kwargs w =
  let r := reverse_request kwargs in
  match network (sent w) r with
  | Body v => (after_request w r, _check_response render v)
  | Failure e =>
      if is_HttpRequestError e
      then (log_error "Failed to query address: %s" e (after_request w r),
            Raise (Exn AddressNotFound "Address not found." (Some e)))
      else (after_request w r, Raise e)
  end.
Proof.
  unfold async_reverse_body, async_request. simpl.
  destruct (network _ _); reflexivity.
Qed.

Lemma request_layer_raises (path : string) (params : dict) (w : world) (e : exn) :
  snd (request_layer path params w) = inl e <->
  network (sent w) (mkRequest GET path params) = Failure e.
Proof.
  unfold async_request. simpl.
  destruct (network _ _); split; intros H; try discriminate;
    now inversion H.
Qed.

Lemma request_layer_returns (path : string) (params : dict) (w : world)
  (body : pyval) :
  snd (request_layer path params w) = inr body <->
  network (sent w) (mkRequest GET path params) = Body body.
Proof.
  unfold async_request. simpl.
  destruct (network _ _); split; intros H; try discriminate;
    now inversion H.
Qed.

(** A call that is refused raises a [TypeError] and leaves the world alone. *)
Lemma bind_search_refusal (args : list pyval) (kw : dict) (e : exn) :
  bound_search args kw = inl e -> exn_cls e = TypeError.
Proof.
  unfold bind_search, refuse. intros H.
  destruct (unique_keys kw); simpl in H; [|now inversion H].
  destruct (dict_contains "self" kw); [now inversion H|].
  destruct args as [|a0 [|a1 [|a2 args]]].
  - destruct (dict_get "query" kw); [|now inversion H].
    destruct (dict_get "limit" kw); discriminate.
  - destruct (dict_contains "query" kw); [now inversion H|].
    destruct (dict_get "limit" kw); discriminate.
  - destruct (dict_contains "query" kw); [now inversion H|].
    destruct (dict_contains "limit" kw); [now inversion H | discriminate].
  - now inversion H.
Qed.

Lemma bind_reverse_refusal (args : list pyval) (kw : dict) (e : exn) :
  bound_reverse args kw = inl e -> exn_cls e = TypeError.
Proof.
  unfold bind_reverse, refuse. intros H.
  destruct (unique_keys kw); simpl in H; [|now inversion H].
  destruct (dict_contains "self" kw); [now inversion H|].
  destruct args; [discriminate | now inversion H].
Qed.

(** X5: an exception of the request layer that is no [HttpRequestError] is
    not caught: the call raises that very exception, after its one request,
    and logs nothing. *)
Theorem foreign_error_propagates
  (args : list pyval) (kw : dict) (w : world) (e : exn) :
  is_HttpRequestError e = false ->
  (forall query limit kwargs,
     bound_search args kw = inr (query, limit, kwargs) ->
     snd (request_layer (API_BASE_URL ++ "/search")
            (dict_update [] ([("q", query); ("limit", limit)] ++ kwargs)%list) w)
     = inl e ->
     search args kw w =
     (after_request w (search_request query limit kwargs), Raise e))
  /\
  (forall kwargs,
     bound_reverse args kw = inr kwargs ->
     snd (request_layer (API_BASE_URL ++ "/reverse") (dict_update [] kwargs) w)
     = inl e ->
     reverse args kw w = (after_request w (reverse_request kwargs), Raise e)).
Proof.
  intros He. split.
  - intros query limit kwargs Hb Hr. apply request_layer_raises in Hr.
    unfold async_search. rewrite Hb, search_body_run. cbv zeta.
    now rewrite Hr, He.
  - intros kwargs Hb Hr. apply request_layer_raises in Hr.
    unfold async_reverse. rewrite Hb, reverse_body_run. cbv zeta.
    now rewrite Hr, He.
Qed.

(** X6: when the request layer returns a body, the call ends as the response
    check of that body ends, after its one request, and logs nothing. *)
Theorem returned_body_is_checked
  (args : list pyval) (kw : dict) (w : world) (body : pyval) :
  (forall query limit kwargs,
     bound_search args kw = inr (query, limit, kwargs) ->
     snd (request_layer (API_BASE_URL ++ "/search")
            (dict_update [] ([("q", query); ("limit", limit)] ++ kwargs)%list) w)
     = inr body ->
     search args kw w =
     (after_request w (search_request query limit kwargs),
      _check_response render body))
  /\
  (forall kwargs,
     bound_reverse args kw = inr kwargs ->
     snd (request_layer (API_BASE_URL ++ "/reverse") (dict_update [] kwargs) w)
     = inr body ->
     reverse args kw w =
     (after_request w (reverse_request kwargs), _check_response render body)).
Proof.
  split.
  - intros query limit kwargs Hb Hr. apply request_layer_returns in Hr.
    unfold async_search. rewrite Hb, search_body_run. cbv zeta.
    now rewrite Hr.
  - intros kwargs Hb Hr. apply request_layer_returns in Hr.
    unfold async_reverse. rewrite Hb, reverse_body_run. cbv zeta.
    now rewrite Hr.
Qed.

(** X7: whatever the arguments and the reply, a call only adds to what was
    sent and logged before: at most one request, and at most one log
    record, which is never written without a request. *)
Theorem calls_only_append (args : list pyval) (kw : dict) (w : world) :
  (exists rs ls,
     sent (fst (search args kw w)) = (sent w ++ rs)%list /\
     logged (fst (search args kw w)) = (logged w ++ ls)%list /\
     List.length ls <= List.length rs /\ List.length rs <= 1)
  /\
  (exists rs ls,
     sent (fst (reverse args kw w)) = (sent w ++ rs)%list /\
     logged (fst (reverse args kw w)) = (logged w ++ ls)%list /\
     List.length ls <= List.length rs /\ List.length rs <= 1).
Proof.
  assert (Quiet : forall w0 : world,
            exists rs ls : _,
              sent w0 = (sent w0 ++ rs)%list /\
              logged w0 = (logged w0 ++ ls)%list /\
              List.length ls <= List.length rs /\ List.length rs <= 1).
  { intros w0. exists [], []. rewrite !app_nil_r. repeat split; auto. }
  assert (Once : forall r : request,
            exists rs ls : _,
              (sent w ++ [r])%list = (sent w ++ rs)%list /\
              logged w = (logged w ++ ls)%list /\
              List.length ls <= List.length rs /\ List.length rs <= 1).
  { intros r. exists [r], []. rewrite app_nil_r.
    repeat split; simpl; auto using le_n, le_S. }
  assert (Logged : forall (r : request) (l : log_record),
            exists rs ls : _,
              (sent w ++ [r])%list = (sent w ++ rs)%list /\
              (logged w ++ [l])%list = (logged w ++ ls)%list /\
              List.length ls <= List.length rs /\ List.length rs <= 1).
  { intros r l. exists [r], [l].
    repeat split; simpl; auto using le_n, le_S. }
  split.
  - unfold async_search.
    destruct (bound_search args kw) as [e | [[query limit] kwargs]].
    + apply Quiet.
    + rewrite search_body_run. cbv zeta.
      destruct (network _ _) as [v|e];
        [|destruct (is_HttpRequestError e)]; simpl.
      * apply Once.
      * apply Logged.
      * apply Once.
  - unfold async_reverse.
    destruct (bound_reverse args kw) as [e | kwargs].
    + apply Quiet.
    + rewrite reverse_body_run. cbv zeta.
      destruct (network _ _) as [v|e];
        [|destruct (is_HttpRequestError e)]; simpl.
      * apply Once.
      * apply Logged.
      * apply Once.
Qed.

(** What the check can hand on: a true value or an exception. *)
Lemma check_result_shape (body : pyval) :
  match _check_response render body with
  | Return v => truthy v = true
  | Raise _ => True
  | FallOff => False
  end.
Proof.
  destruct (body_cases body) as [(d & x & -> & Hf) | [(d & -> & Hd & Hf) | Hb]].
  - rewrite (check_features_present _ _ _ Hf).
    destruct (truthy x) eqn:Tx; [exact Tx | exact I].
  - rewrite (check_features_absent _ _ Hd Hf).
    destruct (dict_get "error" d); exact I.
  - rewrite (check_not_a_filled_dict _ _ Hb). exact I.
Qed.

(** Where an [AddressNotFound] of the check comes from. *)
Lemma check_not_found_shape (body : pyval) (e : exn) :
  _check_response render body = Raise e ->
  exn_cls e = AddressNotFound ->
  exists d v,
    body = PDict d /\ dict_get "features" d = Some v /\ truthy v = false /\
    e = Exn AddressNotFound "No addresses found for the given query." None.
Proof.
  intros H C.
  destruct (body_cases body) as [(d & x & -> & Hf) | [(d & -> & Hd & Hf) | Hb]].
  - rewrite (check_features_present _ _ _ Hf) in H.
    destruct (truthy x) eqn:Tx; [discriminate|].
    injection H as <-. now exists d, x.
  - rewrite (check_features_absent _ _ Hd Hf) in H.
    destruct (dict_get "error" d); injection H as <-; discriminate.
  - rewrite (check_not_a_filled_dict _ _ Hb) in H.
    injection H as <-. discriminate.
Qed.

(** X8: calls the signatures do not admit are refused with a [TypeError]
    before anything is sent or logged: [async_reverse] with a positional
    argument, [async_search] without a query or with more than two positional
    arguments, and either with a keyword given twice. *)
Theorem refused_calls (args : list pyval) (kw : dict) (w : world) :
  (args <> [] ->
   exists e, reverse args kw w = (w, Raise e) /\ exn_cls e = TypeError)
  /\
  (args = [] -> dict_get "query" kw = None ->
   exists e, search args kw w = (w, Raise e) /\ exn_cls e = TypeError)
  /\
  (2 < List.length args ->
   exists e, search args kw w = (w, Raise e) /\ exn_cls e = TypeError)
  /\
  (unique_keys kw = false ->
   (exists e, search args kw w = (w, Raise e) /\ exn_cls e = TypeError) /\
   (exists e, reverse args kw w = (w, Raise e) /\ exn_cls e = TypeError)).
Proof.
  repeat split.
  - intros Ha. unfold async_reverse, bind_reverse, refuse.
    destruct (unique_keys kw); simpl; [|eexists; split; reflexivity].
    destruct (dict_contains "self" kw); [eexists; split; reflexivity|].
    destruct args; [contradiction | eexists; split; reflexivity].
  - intros -> Hq. unfold async_search, bind_search, refuse.
    destruct (unique_keys kw); simpl; [|eexists; split; reflexivity].
    destruct (dict_contains "self" kw); [eexists; split; reflexivity|].
    rewrite Hq. eexists; split; reflexivity.
  - intros Ha. unfold async_search, bind_search, refuse.
    destruct (unique_keys kw); simpl; [|eexists; split; reflexivity].
    destruct (dict_contains "self" kw); [eexists; split; reflexivity|].
    destruct args as [|a0 [|a1 [|a2 args]]]; simpl in Ha.
    + inversion Ha.
    + inversion Ha as [|? Hb]; inversion Hb.
    + inversion Ha as [|? Hb]; inversion Hb as [|? Hc]; inversion Hc.
    + eexists; split; reflexivity.
  - unfold async_search, bind_search, refuse. rewrite H. simpl.
    eexists; split; reflexivity.
  - unfold async_reverse, bind_reverse, refuse. rewrite H. simpl.
    eexists; split; reflexivity.
Qed.

(** X9: no call hands [None] or anything else that is false in a truth test
    to its caller, an empty list included: a call that returns, returns a
    true value, and no call runs off the end of the response check. *)
Theorem calls_return_true_values (args : list pyval) (kw : dict) (w : world) :
  (snd (search args kw w) <> FallOff /\
   forall v, returned_value (snd (search args kw w)) = Some v ->
             truthy v = true)
  /\
  (snd (reverse args kw w) <> FallOff /\
   forall v, returned_value (snd (reverse args kw w)) = Some v ->
             truthy v = true).
Proof.
  assert (Shape : forall body,
            _check_response render body <> FallOff /\
            forall v, returned_value (_check_response render body) = Some v ->
                      truthy v = true).
  { intros body. pose proof (check_result_shape body) as S.
    destruct (_check_response render body); [|split; discriminate|contradiction].
    split; [discriminate|]. simpl. now intros ? [= <-]. }
  split.
  - unfold async_search.
    destruct (bound_search args kw) as [e | [[query limit] kwargs]];
      [split; discriminate|].
    rewrite search_body_run. cbv zeta.
    destruct (network _ _) as [v|e];
      [apply Shape | destruct (is_HttpRequestError e); split; discriminate].
  - unfold async_reverse.
    destruct (bound_reverse args kw) as [e | kwargs];
      [split; discriminate|].
    rewrite reverse_body_run. cbv zeta.
    destruct (network _ _) as [v|e];
      [apply Shape | destruct (is_HttpRequestError e); split; discriminate].
Qed.

(** X10: an [AddressNotFound] that leaves a call has one of three origins,
    which its cause and message tell apart: a caught [HttpRequestError], which
    is its cause; a body whose ['features'] entry is false in a truth test,
    with no cause; or the request layer raised that very exception, not being
    an [HttpRequestError]. *)
Theorem not_found_origins
  (args : list pyval) (kw : dict) (w : world) (e : exn) :
  exn_cls e = AddressNotFound ->
  (forall query limit kwargs,
     bound_search args kw = inr (query, limit, kwargs) ->
     snd (search args kw w) = Raise e ->
     (exists e0,
        network (sent w) (search_request query limit kwargs) = Failure e0 /\
        is_HttpRequestError e0 = true /\
        e = Exn AddressNotFound "Address not found." (Some e0))
     \/
     (exists d v,
        network (sent w) (search_request query limit kwargs) = Body (PDict d) /\
        dict_get "features" d = Some v /\ truthy v = false /\
        e = Exn AddressNotFound "No addresses found for the given query." None)
     \/
     (network (sent w) (search_request query limit kwargs) = Failure e /\
      is_HttpRequestError e = false))
  /\
  (forall kwargs,
     bound_reverse args kw = inr kwargs ->
     snd (reverse args kw w) = Raise e ->
     (exists e0,
        network (sent w) (reverse_request kwargs) = Failure e0 /\
        is_HttpRequestError e0 = true /\
        e = Exn AddressNotFound "Address not found." (Some e0))
     \/
     (exists d v,
        network (sent w) (reverse_request kwargs) = Body (PDict d) /\
        dict_get "features" d = Some v /\ truthy v = false /\
        e = Exn AddressNotFound "No addresses found for the given query." None)
     \/
     (network (sent w) (reverse_request kwargs) = Failure e /\
      is_HttpRequestError e = false)).
Proof.
  intros C. split.
  - intros query limit kwargs Hb. unfold async_search.
    rewrite Hb, search_body_run. cbv zeta.
    destruct (network _ _) as [body|e0]; simpl.
    + intros H. right; left.
      destruct (check_not_found_shape _ _ H C) as (d & v & -> & Hf & Tv & ->).
      now exists d, v.
    + destruct (is_HttpRequestError e0) eqn:E0; simpl; intros [= <-].
      * left. now exists e0.
      * right; right. now split.
  - intros kwargs Hb. unfold async_reverse.
    rewrite Hb, reverse_body_run. cbv zeta.
    destruct (network _ _) as [body|e0]; simpl.
    + intros H. right; left.
      destruct (check_not_found_shape _ _ H C) as (d & v & -> & Hf & Tv & ->).
      now exists d, v.
    + destruct (is_HttpRequestError e0) eqn:E0; simpl; intros [= <-].
      * left. now exists e0.
      * right; right. now split.
Qed.

End OperationOutcomes.

(** ** The order of the parameters, repeated calls and the forms of a call *)

Lemma keys_dict_set (k : string) (v : pyval) (d : dict) :
  map fst (dict_set k v d) =
  if dict_contains k d then map fst d else (map fst d ++ [k])%list.
Proof.
  unfold dict_contains.
  induction d as [|[k0 v0] d IH]; simpl.
  - reflexivity.
  - destruct (String.eqb k k0); simpl; [reflexivity|].
    rewrite IH. now destruct (dict_get k d).
Qed.

Lemma dict_contains_set (k k' : string) (v : pyval) (d : dict) :
  dict_contains k (dict_set k' v d) = String.eqb k k' || dict_contains k d.
Proof.
  unfold dict_contains. rewrite dict_get_set.
  now destruct (String.eqb k k').
Qed.

Lemma dict_contains_keys (k : string) (d : dict) :
  dict_contains k d = false -> ~ In k (map fst d).
Proof.
  unfold dict_contains.
  induction d as [|[k0 v0] d IH]; simpl; intros H.
  - intros [].
  - destruct (String.eqb k k0) eqn:E; [discriminate|].
    intros [<- | Hin].
    + now rewrite String.eqb_refl in E.
    + exact (IH H Hin).
Qed.

(** The keys after an update: those that were there, in their places, then
    the new ones in the order of the items. *)
Lemma keys_dict_update (items d : dict) :
  unique_keys items = true ->
  map fst (dict_update d items) =
  (map fst d ++
   filter (fun k => negb (dict_contains k d)) (map fst items))%list.
Proof.
  revert d. induction items as [|[k v] items IH]; intros d U.
  - simpl. now rewrite app_nil_r.
  - simpl in U. apply andb_true_iff in U. destruct U as [Hk U].
    apply negb_true_iff in Hk.
    rewrite dict_update_cons, (IH _ U), keys_dict_set. simpl.
    assert (Same : filter (fun k' => negb (dict_contains k' (dict_set k v d)))
                     (map fst items) =
                   filter (fun k' => negb (dict_contains k' d))
                     (map fst items)).
    { apply filter_ext_in. intros k' Hin. rewrite dict_contains_set.
      destruct (String.eqb k' k) eqn:E; [|reflexivity].
      apply String.eqb_eq in E; subst k'.
      exfalso. exact (dict_contains_keys _ _ Hk Hin). }
    rewrite Same.
    destruct (dict_contains k d); simpl; [reflexivity|].
    now rewrite <- app_assoc.
Qed.

Section CallForms.

Variable render : pyval -> string.
Variable API_BASE_URL : string.
Variable network : list request -> request -> reply.
Variable describe : bind_error -> string.

Local Abbreviation search := (async_search render API_BASE_URL network describe).
Local Abbreviation reverse := (async_reverse render API_BASE_URL network describe).
Local Abbreviation bound_search := (bind_search describe).
Local Abbreviation bound_reverse := (bind_reverse describe).

(** X11: the parameters of a search are sent in the order ['q'], ['limit'],
    then the other keyword arguments in the order they were given; a keyword
    ['q'] stands in the first place and not in its own. Without a keyword
    ['q'] the dictionary is [query] and [limit] followed by the keywords. *)
Theorem search_params_order
  (args : list pyval) (kw : dict) (w : world)
  (query limit : pyval) (kwargs : dict) :
  bound_search args kw = inr (query, limit, kwargs) ->
  exists params,
    sent (fst (search args kw w)) =
    (sent w ++ [mkRequest GET (API_BASE_URL ++ "/search") params])%list /\
    map fst params =
    "q" :: "limit" ::
      filter (fun k => negb (String.eqb k "q")) (map fst kwargs) /\
    (dict_get "q" kw = None ->
     params = ("q", query) :: ("limit", limit) :: kwargs).
Proof.
  intros Hb.
  pose proof (bind_search_unique _ _ _ _ _ _ Hb) as U.
  assert (Hl : dict_get "limit" kwargs = None).
  { destruct (bind_search_kwargs _ _ _ _ _ _ Hb) as [_ ->].
    now rewrite dict_get_without. }
  eexists. unfold async_search. rewrite Hb.
  split; [apply search_body_sent|]. split.
  - rewrite dict_update_app, (keys_dict_update _ _ U). simpl.
    f_equal. f_equal. apply filter_ext_in. intros k Hin.
    unfold dict_contains. simpl.
    destruct (String.eqb k "q"); [reflexivity|].
    destruct (String.eqb k "limit") eqn:E; [|reflexivity].
    apply String.eqb_eq in E; subst k. exfalso.
    apply (dict_contains_keys "limit" kwargs); [|exact Hin].
    unfold dict_contains. now rewrite Hl.
  - intros Hq.
    assert (Hq' : dict_get "q" kwargs = None).
    { rewrite (bind_search_passes _ _ _ _ _ _ "q" Hb), Hq;
        [reflexivity | discriminate | discriminate]. }
    change (("q", query) :: ("limit", limit) :: kwargs)
      with ([("q", query); ("limit", limit)] ++ kwargs)%list.
    rewrite dict_update_app. apply dict_update_fresh.
    simpl. unfold dict_contains. simpl. now rewrite Hq', Hl, U.
Qed.

(** X12: nothing is kept from one call to the next: a call repeated with the
    same arguments sends the same request again, and what it gets is the
    reply of the network to that second request. *)
Theorem repeated_calls_send_again
  (args : list pyval) (kw : dict) (w : world) :
  (forall query limit kwargs,
     bound_search args kw = inr (query, limit, kwargs) ->
     exists r,
       sent (fst (search args kw w)) = (sent w ++ [r])%list /\
       sent (fst (search args kw (fst (search args kw w)))) =
       (sent w ++ [r; r])%list)
  /\
  (forall kwargs,
     bound_reverse args kw = inr kwargs ->
     exists r,
       sent (fst (reverse args kw w)) = (sent w ++ [r])%list /\
       sent (fst (reverse args kw (fst (reverse args kw w)))) =
       (sent w ++ [r; r])%list).
Proof.
  split.
  - intros query limit kwargs Hb. eexists. unfold async_search. rewrite Hb.
    rewrite !search_body_sent. split; [reflexivity|].
    now rewrite <- app_assoc.
  - intros kwargs Hb. eexists. unfold async_reverse. rewrite Hb.
    rewrite !reverse_body_sent. split; [reflexivity|].
    now rewrite <- app_assoc.
Qed.

(** X13: [query] and [limit] may be given by position or by keyword, with the
    same run of the call either way. *)
Theorem search_by_position_or_keyword
  (query limit : pyval) (kw : dict) (w : world) :
  dict_contains "query" kw = false ->
  dict_contains "limit" kw = false ->
  search [query; limit] kw w =
  search [] (("query", query) :: ("limit", limit) :: kw) w
  /\
  search [query; limit] kw w = search [query] (("limit", limit) :: kw) w.
Proof.
  intros Hq Hl. unfold async_search, bind_search, dict_without, refuse.
  simpl. unfold dict_contains in *. simpl.
  destruct (dict_get "query" kw); [discriminate|].
  destruct (dict_get "limit" kw); [discriminate|].
  simpl. destruct (unique_keys kw); simpl; [|split; reflexivity].
  destruct (dict_get "self" kw); split; reflexivity.
Qed.

End CallForms.

(** ** When a call returns *)

Section CallReturns.

Variable render : pyval -> string.
Variable API_BASE_URL : string.
Variable network : list request -> request -> reply.
Variable describe : bind_error -> string.

Local Abbreviation search := (async_search render API_BASE_URL network describe).
Local Abbreviation reverse := (async_reverse render API_BASE_URL network describe).
Local Abbreviation bound_search := (bind_search describe).
Local Abbreviation bound_reverse := (bind_reverse describe).

Lemma check_returns_shape (body v : pyval) :
  _check_response render body = Return v <->
  exists d, body = PDict d /\ dict_get "features" d = Some v /\ truthy v = true.
Proof.
  split.
  - intros H.
    destruct (body_cases body) as [(d & x & -> & Hf) | [(d & -> & Hd & Hf) | Hb]].
    + rewrite (check_features_present _ _ _ Hf) in H.
      destruct (truthy x) eqn:Tx; [|discriminate].
      injection H as ->. now exists d.
    + rewrite (check_features_absent _ _ Hd Hf) in H.
      destruct (dict_get "error" d); discriminate.
    + rewrite (check_not_a_filled_dict _ _ Hb) in H. discriminate.
  - intros (d & -> & Hf & Tv).
    now rewrite (check_features_present _ _ _ Hf), Tv.
Qed.

(** X14: a call that binds returns [v] exactly when the reply to its request
    is a body that is a dictionary holding [v] under ['features'], [v] being
    true in a truth test: what is returned is the entry of the reply, as it
    came. *)
Theorem call_returns_iff
  (args : list pyval) (kw : dict) (w : world) (v : pyval) :
  (forall query limit kwargs,
     bound_search args kw = inr (query, limit, kwargs) ->
     (snd (search args kw w) = Return v <->
      exists d,
        network (sent w)
          (mkRequest GET (API_BASE_URL ++ "/search")
             (dict_update []
                ([("q", query); ("limit", limit)] ++ kwargs)%list))
        = Body (PDict d) /\
        dict_get "features" d = Some v /\ truthy v = true))
  /\
  (forall kwargs,
     bound_reverse args kw = inr kwargs ->
     (snd (reverse args kw w) = Return v <->
      exists d,
        network (sent w)
          (mkRequest GET (API_BASE_URL ++ "/reverse") (dict_update [] kwargs))
        = Body (PDict d) /\
        dict_get "features" d = Some v /\ truthy v = true)).
Proof.
  split.
  - intros query limit kwargs Hb. unfold async_search.
    rewrite Hb, search_body_run. cbv zeta.
    destruct (network _ _) as [body|e]; simpl.
    + rewrite check_returns_shape. split.
      * intros (d & -> & H). now exists d.
      * intros (d & [= ->] & H). now exists d.
    + split.
      * destruct (is_HttpRequestError e); discriminate.
      * intros (d & H & _). discriminate.
  - intros kwargs Hb. unfold async_reverse.
    rewrite Hb, reverse_body_run. cbv zeta.
    destruct (network _ _) as [body|e]; simpl.
    + rewrite check_returns_shape. split.
      * intros (d & -> & H). now exists d.
      * intros (d & [= ->] & H). now exists d.
    + split.
      * destruct (is_HttpRequestError e); discriminate.
      * intros (d & H & _). discriminate.
Qed.

End CallReturns.

(** ** The further properties on concrete bodies and calls *)

Lemma check_response_returns_iff_witness :
  _check_response sample_render (PDict [("features", PList [rivoli])])
  = Return (PList [rivoli]).
Proof.
  apply (proj2 (check_response_returns_iff sample_render
                  (PDict [("features", PList [rivoli])]) (PList [rivoli]))).
  exists [("features", PList [rivoli])]. repeat split.
Defined.

Lemma check_response_not_found_iff_witness :
  exists e,
    _check_response sample_render
      (PDict [("features", PStr ""); ("error", PStr "unused")]) = Raise e /\
    exn_cls e = AddressNotFound.
Proof.
  apply (proj2 (check_response_not_found_iff sample_render
                  (PDict [("features", PStr ""); ("error", PStr "unused")]))).
  exists [("features", PStr ""); ("error", PStr "unused")], (PStr "").
  repeat split.
Defined.

Lemma check_response_invalid_iff_witness :
  exists e,
    _check_response sample_render (PList [rivoli]) = Raise e /\
    exn_cls e = AddressFrException /\ exn_cause e = None.
Proof.
  destruct (check_response_invalid_iff sample_render (PList [rivoli]))
    as [Hiff Hcause].
  destruct (proj2 Hiff eq_refl) as (e & H & C).
  exists e. repeat split; [exact H | exact C | exact (Hcause e H)].
Defined.

Lemma check_response_reads_two_entries_witness :
  _check_response sample_render
    (PDict [("type", PStr "FeatureCollection"); ("features", PList [rivoli])])
  = _check_response sample_render
      (PDict [("features", PList [rivoli]); ("limit", PInt 5)]).
Proof.
  apply (check_response_reads_two_entries sample_render
           [("type", PStr "FeatureCollection"); ("features", PList [rivoli])]
           [("features", PList [rivoli]); ("limit", PInt 5)]);
    (discriminate || reflexivity).
Defined.

Lemma foreign_error_propagates_witness :
  async_search sample_render sample_base_url interrupted_network
    sample_describe [PStr "Paris"] [] fresh_world
  = ({| sent := [mkRequest GET (sample_base_url ++ "/search")
                   [("q", PStr "Paris"); ("limit", PInt 10)]];
        logged := [] |},
     Raise sample_cancelled).
Proof.
  apply (proj1 (foreign_error_propagates
                  sample_render sample_base_url interrupted_network
                  sample_describe [PStr "Paris"] [] fresh_world
                  sample_cancelled eq_refl)
           (PStr "Paris") (PInt 10) []); reflexivity.
Defined.

Lemma returned_body_is_checked_witness :
  async_reverse sample_render sample_base_url empty_network sample_describe
    [] [("lat", PFloat 48.85%float); ("lon", PFloat 2.35%float)] fresh_world
  = ({| sent := [mkRequest GET (sample_base_url ++ "/reverse")
                   [("lat", PFloat 48.85%float); ("lon", PFloat 2.35%float)]];
        logged := [] |},
     _check_response sample_render (PDict [("features", PList [])])).
Proof.
  apply (proj2 (returned_body_is_checked
                  sample_render sample_base_url empty_network sample_describe
                  [] [("lat", PFloat 48.85%float); ("lon", PFloat 2.35%float)]
                  fresh_world (PDict [("features", PList [])]))
           [("lat", PFloat 48.85%float); ("lon", PFloat 2.35%float)]);
    reflexivity.
Defined.

Lemma refused_calls_witness :
  exists e,
    async_reverse sample_render sample_base_url answering_network
      sample_describe [PFloat 48.85%float; PFloat 2.35%float] [] fresh_world
    = (fresh_world, Raise e) /\
    exn_cls e = TypeError.
Proof.
  apply (proj1 (refused_calls
                  sample_render sample_base_url answering_network
                  sample_describe
                  [PFloat 48.85%float; PFloat 2.35%float] [] fresh_world)).
  discriminate.
Defined.

Lemma calls_return_true_values_witness :
  truthy (PList [rivoli]) = true.
Proof.
  apply (proj2 (proj1 (calls_return_true_values
                         sample_render sample_base_url answering_network
                         sample_describe [PStr "10 rue de Rivoli"] []
                         fresh_world))).
  reflexivity.
Defined.

Lemma not_found_origins_witness :
  (exists e0,
     failing_network (sent fresh_world)
       (mkRequest GET (sample_base_url ++ "/search")
          (dict_update [] [("q", PStr "Paris"); ("limit", PInt 10)]))
     = Failure e0 /\
     is_HttpRequestError e0 = true /\
     Exn AddressNotFound "Address not found." (Some sample_timeout)
     = Exn AddressNotFound "Address not found." (Some e0))
  \/
  (exists d v,
     failing_network (sent fresh_world)
       (mkRequest GET (sample_base_url ++ "/search")
          (dict_update [] [("q", PStr "Paris"); ("limit", PInt 10)]))
     = Body (PDict d) /\
     dict_get "features" d = Some v /\ truthy v = false /\
     Exn AddressNotFound "Address not found." (Some sample_timeout)
     = Exn AddressNotFound "No addresses found for the given query." None)
  \/
  (failing_network (sent fresh_world)
     (mkRequest GET (sample_base_url ++ "/search")
        (dict_update [] [("q", PStr "Paris"); ("limit", PInt 10)]))
   = Failure (Exn AddressNotFound "Address not found." (Some sample_timeout)) /\
   is_HttpRequestError
     (Exn AddressNotFound "Address not found." (Some sample_timeout)) = false).
Proof.
  apply (proj1 (not_found_origins
                  sample_render sample_base_url failing_network sample_describe
                  [PStr "Paris"] [] fresh_world
                  (Exn AddressNotFound "Address not found." (Some sample_timeout))
                  eq_refl)
           (PStr "Paris") (PInt 10) []); reflexivity.
Defined.

Lemma search_params_order_witness :
  exists params,
    sent (fst (async_search sample_render sample_base_url answering_network
                 sample_describe [PStr "Paris"]
                 [("postcode", PStr "69001"); ("q", PStr "Lyon")]
                 fresh_world)) =
    (sent fresh_world ++
     [mkRequest GET (sample_base_url ++ "/search") params])%list /\
    map fst params = ["q"; "limit"; "postcode"].
Proof.
  destruct (search_params_order
              sample_render sample_base_url answering_network sample_describe
              [PStr "Paris"] [("postcode", PStr "69001"); ("q", PStr "Lyon")]
              fresh_world (PStr "Paris") (PInt 10)
              [("postcode", PStr "69001"); ("q", PStr "Lyon")] eq_refl)
    as (params & Hs & Hk & _).
  exists params. split; [exact Hs | exact Hk].
Defined.

Lemma repeated_calls_send_again_witness :
  exists r,
    sent (fst (async_search sample_render sample_base_url answering_network
                 sample_describe [PStr "Paris"] [] fresh_world))
    = (sent fresh_world ++ [r])%list /\
    sent (fst (async_search sample_render sample_base_url answering_network
                 sample_describe [PStr "Paris"] []
                 (fst (async_search sample_render sample_base_url
                         answering_network sample_describe
                         [PStr "Paris"] [] fresh_world))))
    = (sent fresh_world ++ [r; r])%list.
Proof.
  apply (proj1 (repeated_calls_send_again
                  sample_render sample_base_url answering_network
                  sample_describe [PStr "Paris"] [] fresh_world)
           (PStr "Paris") (PInt 10) []).
  reflexivity.
Defined.

Lemma search_by_position_or_keyword_witness :
  async_search sample_render sample_base_url answering_network sample_describe
    [PStr "Paris"; PInt 5] [("postcode", PStr "75004")] fresh_world
  = async_search sample_render sample_base_url answering_network
      sample_describe []
      [("query", PStr "Paris"); ("limit", PInt 5); ("postcode", PStr "75004")]
      fresh_world.
Proof.
  apply (search_by_position_or_keyword
           sample_render sample_base_url answering_network sample_describe
           (PStr "Paris") (PInt 5) [("postcode", PStr "75004")] fresh_world);
    reflexivity.
Defined.

Lemma call_returns_iff_witness :
  snd (async_search sample_render sample_base_url answering_network
         sample_describe [PStr "10 rue de Rivoli"] [("limit", PInt 5)]
         fresh_world)
  = Return (PList [rivoli]).
Proof.
  apply (proj2 (proj1 (call_returns_iff
                         sample_render sample_base_url answering_network
                         sample_describe
                         [PStr "10 rue de Rivoli"] [("limit", PInt 5)]
                         fresh_world (PList [rivoli]))
                  (PStr "10 rue de Rivoli") (PInt 5) [] eq_refl)).
  exists [("features", PList [rivoli])]. repeat split.
Defined.
